(** * dbt rental-property pipeline: decisions, relay and refresh strategy

    A shallow embedding of [dags/dbt_rental_property_dag.py]: the three
    branch callables ([check_schema_changes], [check_late_arrivals],
    [check_source_freshness]), the XCom relay they write, the templated
    shell script of task [fct_daily_listing_performance] that reads it, and
    the wiring of the graph. *)

From Stdlib Require Import ZArith Ascii String List Bool Lia DecimalString.
From stdpp Require Import base option strings gmap fin_maps.

Import ListNotations.
Local Open Scope string_scope.
Local Open Scope Z_scope.

(** ** Python values *)

(** The values that [json.load] builds and that XCom carries.  A float is
    kept as the text of its literal: the program does no arithmetic on it.
    A dict is its items in insertion order; its keys are distinct. *)
#[warning="-register-all"]
Inductive pyval : Type :=
| PyNone
| PyBool (b : bool)
| PyInt (n : Z)
| PyFloat (literal : string)
| PyStr (s : string)
| PyList (items : list pyval)
| PyDict (items : list (string * pyval)).

(** [type(v).__name__] *)
Definition py_type_name (v : pyval) : string :=
  match v with
  | PyNone => "NoneType"
  | PyBool _ => "bool"
  | PyInt _ => "int"
  | PyFloat _ => "float"
  | PyStr _ => "str"
  | PyList _ => "list"
  | PyDict _ => "dict"
  end.

(** [v == s] for a string literal [s]: false for every value that is not a
    string. *)
Definition py_eq_str (v : pyval) (s : string) : bool :=
  match v with
  | PyStr t => String.eqb t s
  | _ => false
  end.

(** ** Exceptions *)

Inductive py_exn : Type :=
| AttributeError (msg : string)
| TypeError (msg : string)
| ValueError (msg : string)
| OSError (msg : string)
| JSONDecodeError (msg : string).

(** [str(e)] *)
Definition exn_message (e : py_exn) : string :=
  match e with
  | AttributeError m | TypeError m | ValueError m | OSError m
  | JSONDecodeError m => m
  end.

(** What a call does: it returns a value or raises. *)
Inductive outcome (A : Type) : Type :=
| Returned (a : A)
| Raised (e : py_exn).
Arguments Returned {A} a.
Arguments Raised {A} e.

#[global] Instance outcome_ret : MRet outcome := fun A a => Returned a.
#[global] Instance outcome_bind : MBind outcome := fun A B k c =>
  match c with
  | Returned a => k a
  | Raised e => Raised e
  end.

(** ** Text *)

(** [needle in hay] *)
Fixpoint contains (needle hay : string) : bool :=
  String.prefix needle hay ||
  match hay with
  | EmptyString => false
  | String _ rest => contains needle rest
  end.

Fixpoint skip (n : nat) (s : string) : string :=
  match n, s with
  | O, _ => s
  | S n', String _ rest => skip n' rest
  | S _, EmptyString => EmptyString
  end.

Definition backslash : ascii := ascii_of_nat 92.

(** ** The external command *)

(** [subprocess.run(..., capture_output=True, text=True)] *)
Record completed_process : Type := {
  returncode : Z;
  stdout : string;
  stderr : string
}.

(** ** The relay (XCom) *)

(** One run's XCom table, keyed by (task id, key). *)
Abbreviation relay := (gmap (string * string) pyval).

(** The task instance a callable receives as [context['ti']]. *)
Record task_instance : Type := {
  task_id : string;
  xcom : relay
}.

(** [ti.xcom_push(key=k, value=v)]: stored under the pushing task's id; a
    second push under the same key replaces the first. *)
Definition xcom_push (k : string) (v : pyval) (ti : task_instance) : task_instance :=
  {| task_id := task_id ti; xcom := <[(task_id ti, k) := v]> (xcom ti) |}.

(** [ti.xcom_pull(key=k, task_ids=t)]: [None] when nothing was pushed. *)
Definition xcom_pull (k t : string) (r : relay) : pyval :=
  match r !! (t, k) with
  | Some v => v
  | None => PyNone
  end.

(** ** check_schema_changes *)

Definition check_schema_changes (result : completed_process) (ti : task_instance)
  : outcome (string * task_instance) :=
  let output := stdout result ++ stderr result in
  if contains "SCHEMA CHANGE DETECTED" output then
    let ti := xcom_push "refresh_strategy" (PyStr "full_refresh") ti in
    Returned ("schema_changed", ti)
  else
    let ti := xcom_push "refresh_strategy" (PyStr "incremental") ti in
    Returned ("schema_unchanged", ti).

(** ** check_late_arrivals *)

(** The pattern is written [r'LATE_ARRIVAL_COUNT=(\\d+)'].  In a raw string
    the two backslashes stay two characters, and the regular-expression
    engine reads them as one escaped backslash: the group is a literal
    backslash followed by one or more letters [d]. *)
Definition late_arrival_literal : string :=
  "LATE_ARRIVAL_COUNT=" ++ String backslash EmptyString.

(** The longest run of [d] at the head of [s] (the greedy [d+]). *)
Fixpoint take_d (s : string) : string :=
  match s with
  | String c rest => if Ascii.eqb c "d" then String c (take_d rest) else EmptyString
  | EmptyString => EmptyString
  end.

(** A match that starts at the head of [s]: its group 1. *)
Definition match_here (s : string) : option string :=
  if String.prefix late_arrival_literal s then
    match take_d (skip (String.length late_arrival_literal) s) with
    | EmptyString => None
    | ds => Some (String backslash ds)
    end
  else None.

(** [re.search(pattern, s)]: the leftmost match; [match.group(1)]. *)
Fixpoint re_search (s : string) : option string :=
  match match_here s with
  | Some g => Some g
  | None =>
      match s with
      | EmptyString => None
      | String _ rest => re_search rest
      end
  end.

(** No character of [s] is a backslash. *)
Fixpoint no_backslash (s : string) : bool :=
  match s with
  | EmptyString => true
  | String c rest => negb (Ascii.eqb c backslash) && no_backslash rest
  end.

(** White space that [int] strips (the ASCII part of it). *)
Definition is_space (c : ascii) : bool :=
  let n := nat_of_ascii c in
  ((9 <=? n) && (n <=? 13) || (28 <=? n) && (n <=? 32))%nat.

Definition digit_of (c : ascii) : option Z :=
  let n := nat_of_ascii c in
  if ((48 <=? n) && (n <=? 57))%nat then Some (Z.of_nat n - 48) else None.

Fixpoint lstrip (s : string) : string :=
  match s with
  | String c rest => if is_space c then lstrip rest else s
  | EmptyString => EmptyString
  end.

Fixpoint all_space (s : string) : bool :=
  match s with
  | String c rest => is_space c && all_space rest
  | EmptyString => true
  end.

(** Digits, single underscores between digits, then white space to the
    end.  [after_digit] tells that the previous character was a digit. *)
Fixpoint scan_digits (acc : Z) (after_digit : bool) (s : string) : option Z :=
  match s with
  | EmptyString => if after_digit then Some acc else None
  | String c rest =>
      match digit_of c with
      | Some d => scan_digits (10 * acc + d) true rest
      | None =>
          if Ascii.eqb c "_" then
            if after_digit then scan_digits acc false rest else None
          else if after_digit && all_space (String c rest) then Some acc
          else None
      end
  end.

Definition parse_int (s : string) : option Z :=
  match lstrip s with
  | String "+" rest => scan_digits 0 false rest
  | String "-" rest => Z.opp <$> scan_digits 0 false rest
  | t => scan_digits 0 false t
  end.

Section Pipeline.

(** [repr(v)] of a float, a list or a dict: the text is no part of any
    decision, so it is left open. *)
Variable py_repr : pyval -> string.

(** [str(v)], which is also what an f-string field and a Jinja expression
    [{{ v }}] produce. *)
Definition py_str (v : pyval) : string :=
  match v with
  | PyNone => "None"
  | PyBool true => "True"
  | PyBool false => "False"
  | PyInt n => NilZero.string_of_int (Z.to_int n)
  | PyStr s => s
  | PyFloat _ | PyList _ | PyDict _ => py_repr v
  end.

(** [int(s)] *)
Definition py_int (s : string) : outcome Z :=
  match parse_int s with
  | Some n => Returned n
  | None =>
      Raised (ValueError ("invalid literal for int() with base 10: "
                          ++ py_repr (PyStr s)))
  end.

Definition check_late_arrivals (result : completed_process) (ti : task_instance)
  : outcome (string * task_instance) :=
  let output := stdout result ++ stderr result in
  late_count ←
    match re_search output with
    | Some group1 => py_int group1
    | None => Returned 0
    end;
  let ti := xcom_push "late_arrivals_detected" (PyBool (0 <? late_count)) ti in
  let ti := xcom_push "late_arrival_count" (PyInt late_count) ti in
  if 0 <? late_count then Returned ("late_arrivals_detected", ti)
  else Returned ("late_arrivals_clean", ti).

(** ** check_source_freshness *)

(** What the callable finds at [/opt/dbt/target/sources.json]: no file
    ([os.path.exists] is false), a file that [open] or [json.load] rejects
    with an exception, or the loaded value. *)
Inductive artifact : Type :=
| NoFile
| ReadFails (e : py_exn)
| Loaded (sources_data : pyval).

(** The dict [freshness_results]; its lists grow by [append]. *)
Record freshness_results : Type := {
  passed : list pyval;
  warned : list pyval;
  errored : list pyval;
  runtime_error : pyval
}.

Definition freshness_to_py (fr : freshness_results) : pyval :=
  PyDict [("passed", PyList (passed fr)); ("warned", PyList (warned fr));
          ("errored", PyList (errored fr)); ("runtime_error", runtime_error fr)].

Definition set_runtime_error (v : pyval) (fr : freshness_results) : freshness_results :=
  {| passed := passed fr; warned := warned fr; errored := errored fr;
     runtime_error := v |}.

Fixpoint dict_lookup (k : string) (items : list (string * pyval)) : option pyval :=
  match items with
  | [] => None
  | (k', v) :: rest => if String.eqb k' k then Some v else dict_lookup k rest
  end.

Definition no_attribute (v : pyval) (attr : string) : py_exn :=
  AttributeError ("'" ++ py_type_name v ++ "' object has no attribute '" ++ attr ++ "'").

(** [v.get(k, default)]: only a dict has the method. *)
Definition py_get (v : pyval) (k : string) (default : pyval) : outcome pyval :=
  match v with
  | PyDict items =>
      Returned (match dict_lookup k items with Some x => x | None => default end)
  | _ => Raised (no_attribute v "get")
  end.

Fixpoint chars (s : string) : list pyval :=
  match s with
  | EmptyString => []
  | String c rest => PyStr (String c EmptyString) :: chars rest
  end.

(** The elements a [for] loop draws from [v]: the items of a list, the keys
    of a dict, the characters of a string. *)
Definition py_iter (v : pyval) : outcome (list pyval) :=
  match v with
  | PyList items => Returned items
  | PyDict items => Returned (map (fun kv => PyStr (fst kv)) items)
  | PyStr s => Returned (chars s)
  | _ => Raised (TypeError ("'" ++ py_type_name v ++ "' object is not iterable"))
  end.

(** [bool(l)] of a list *)
Definition py_truthy_list (l : list pyval) : bool :=
  match l with
  | [] => false
  | _ :: _ => true
  end.

(** One turn of the loop over the sources.  Everything that can raise comes
    before the [append], so a turn that raises leaves the lists as they
    were. *)
Definition record_source (source : pyval) (fr : freshness_results)
  : outcome freshness_results :=
  unique_id ← py_get source "unique_id" (PyStr "unknown");
  let source_name := py_str unique_id in
  status ← py_get source "status" (PyStr "unknown");
  max_loaded_at ← py_get source "max_loaded_at" (PyStr "N/A");
  let source_info :=
    PyDict [("name", PyStr source_name); ("max_loaded_at", max_loaded_at);
            ("status", status)] in
  if py_eq_str status "pass" then
    Returned {| passed := passed fr ++ [source_info]; warned := warned fr;
                errored := errored fr; runtime_error := runtime_error fr |}
  else if py_eq_str status "warn" then
    Returned {| passed := passed fr; warned := warned fr ++ [source_info];
                errored := errored fr; runtime_error := runtime_error fr |}
  else if py_eq_str status "error" then
    Returned {| passed := passed fr; warned := warned fr;
                errored := errored fr ++ [source_info];
                runtime_error := runtime_error fr |}
  else Returned fr.

(** The loop: the results so far, and the exception that stopped it. *)
Fixpoint for_each_source (sources : list pyval) (fr : freshness_results)
  : freshness_results * option py_exn :=
  match sources with
  | [] => (fr, None)
  | source :: rest =>
      match record_source source fr with
      | Returned fr' => for_each_source rest fr'
      | Raised e => (fr, Some e)
      end
  end.

(** The body of the [try]. *)
Definition read_sources (a : artifact) (fr : freshness_results)
  : freshness_results * option py_exn :=
  match a with
  | NoFile => (fr, None)
  | ReadFails e => (fr, Some e)
  | Loaded sources_data =>
      match results ← py_get sources_data "results" (PyList []); py_iter results with
      | Returned sources => for_each_source sources fr
      | Raised e => (fr, Some e)
      end
  end.

(** The dict the callable starts from. *)
Definition no_results : freshness_results :=
  {| passed := []; warned := []; errored := []; runtime_error := PyNone |}.

(** The guard of the early return: a non-zero exit whose error text holds
    [Runtime Error]. *)
Definition runtime_error_exit (result : completed_process) : bool :=
  negb (returncode result =? 0) && contains "Runtime Error" (stderr result).

Definition check_source_freshness (result : completed_process) (a : artifact)
    (ti : task_instance) : outcome (string * task_instance) :=
  let freshness_results := no_results in
  if runtime_error_exit result then
    let freshness_results :=
      set_runtime_error (PyStr (stderr result)) freshness_results in
    let ti := xcom_push "freshness_results" (freshness_to_py freshness_results) ti in
    Returned ("source_freshness_failed", ti)
  else
    let freshness_results :=
      match read_sources a freshness_results with
      | (fr, None) => fr
      | (fr, Some e) => set_runtime_error (PyStr (exn_message e)) fr
      end in
    let ti := xcom_push "freshness_results" (freshness_to_py freshness_results) ti in
    if py_truthy_list (errored freshness_results) then
      Returned ("source_freshness_failed", ti)
    else if py_truthy_list (warned freshness_results) then
      Returned ("source_freshness_warning", ti)
    else Returned ("source_freshness_passed", ti).

(** *** Vocabulary for the statements about the artifact *)

Definition is_dict (v : pyval) : bool :=
  match v with
  | PyDict _ => true
  | _ => false
  end.

(** The source is a dict whose status (['unknown'] when the key is absent)
    equals [s]. *)
Definition has_status (s : string) (source : pyval) : bool :=
  match source with
  | PyDict items =>
      py_eq_str (match dict_lookup "status" items with
                 | Some v => v
                 | None => PyStr "unknown"
                 end) s
  | _ => false
  end.

(** A dict whose status is none of pass, warn, error. *)
Definition unrecognized (source : pyval) : bool :=
  is_dict source
  && negb (has_status "pass" source || has_status "warn" source
           || has_status "error" source).

(** The entry the loop appends for a dict [source]. *)
Definition source_info_of (source : pyval) : pyval :=
  match source with
  | PyDict items =>
      let get k default :=
        match dict_lookup k items with Some v => v | None => default end in
      PyDict [("name", PyStr (py_str (get "unique_id" (PyStr "unknown"))));
              ("max_loaded_at", get "max_loaded_at" (PyStr "N/A"));
              ("status", get "status" (PyStr "unknown"))]
  | _ => PyNone
  end.

(** The report of an artifact whose sources are all dicts: each list holds
    the entries of the sources with that status, in the file's order. *)
Definition report_of (sources : list pyval) : freshness_results :=
  {| passed := map source_info_of (List.filter (has_status "pass") sources);
     warned := map source_info_of (List.filter (has_status "warn") sources);
     errored := map source_info_of (List.filter (has_status "error") sources);
     runtime_error := PyNone |}.

(** The branch the statuses call for. *)
Definition branch_of_statuses (sources : list pyval) : string :=
  if existsb (has_status "error") sources then "source_freshness_failed"
  else if existsb (has_status "warn") sources then "source_freshness_warning"
  else "source_freshness_passed".

(** ** Task fct_daily_listing_performance *)

Definition DBT_PROJECT_DIR : string := "/opt/dbt".
Definition DBT_CMD : string := "cd " ++ DBT_PROJECT_DIR ++ " && dbt".

Definition full_refresh_command : string :=
  DBT_CMD ++ " run --full-refresh --select fct_daily_listing_performance".
Definition incremental_command : string :=
  DBT_CMD ++ " run --select fct_daily_listing_performance".

(** The script's [if ... then ... else ... fi] on the two shell variables:
    the dbt command it runs. *)
Definition fct_daily_script (SCHEMA_STRATEGY LATE_ARRIVALS : string) : string :=
  if String.eqb SCHEMA_STRATEGY "full_refresh" || String.eqb LATE_ARRIVALS "True"
  then full_refresh_command
  else incremental_command.

(** The template puts each rendered value between double quotes.  The shell
    takes it as it stands when it holds none of the characters that stay
    special there: double quote, dollar, backquote, backslash. *)
Fixpoint plain_in_dquotes (s : string) : bool :=
  match s with
  | EmptyString => true
  | String c rest =>
      let n := nat_of_ascii c in
      negb ((n =? 34) || (n =? 36) || (n =? 96) || (n =? 92))%nat
      && plain_in_dquotes rest
  end.

(** The task: render the two [xcom_pull] expressions, then run the script.
    [None] when a rendered value takes the script out of the shell fragment
    described above. *)
Definition fct_daily (r : relay) : option string :=
  let SCHEMA_STRATEGY := py_str (xcom_pull "refresh_strategy" "check_schema_changes" r) in
  let LATE_ARRIVALS := py_str (xcom_pull "late_arrivals_detected" "check_late_arrivals" r) in
  if plain_in_dquotes SCHEMA_STRATEGY && plain_in_dquotes LATE_ARRIVALS
  then Some (fct_daily_script SCHEMA_STRATEGY LATE_ARRIVALS)
  else None.

(** ** The three branch operators *)

Inductive decision : Type :=
| CheckSchemaChanges
| CheckLateArrivals
| CheckSourceFreshness.

(** The [task_id] each [BranchPythonOperator] is declared with. *)
Definition decision_task_id (d : decision) : string :=
  match d with
  | CheckSchemaChanges => "check_schema_changes"
  | CheckLateArrivals => "check_late_arrivals"
  | CheckSourceFreshness => "check_source_freshness"
  end.

(** What a probe leaves behind: the finished process and, for the
    freshness probe, the file it wrote. *)
Record probe : Type := {
  process : completed_process;
  sources_json : artifact
}.

(** Running a branch operator on a relay: its callable's return value and
    the relay after the callable's own pushes. *)
Definition evaluate (d : decision) (p : probe) (r : relay) : outcome (string * relay) :=
  let ti := {| task_id := decision_task_id d; xcom := r |} in
  '(branch, ti') ←
    match d with
    | CheckSchemaChanges => check_schema_changes (process p) ti
    | CheckLateArrivals => check_late_arrivals (process p) ti
    | CheckSourceFreshness => check_source_freshness (process p) (sources_json p) ti
    end;
  Returned (branch, xcom ti').

(** The callables return one [str]; the operator follows the task of that
    id and skips the other direct successors. *)
Definition selected (branch : string) : list string := [branch].

(** The keys a decision pushes. *)
Definition decision_keys (d : decision) : list string :=
  match d with
  | CheckSchemaChanges => ["refresh_strategy"]
  | CheckLateArrivals => ["late_arrivals_detected"; "late_arrival_count"]
  | CheckSourceFreshness => ["freshness_results"]
  end.

(** The values a decision left in the relay, key by key. *)
Definition decision_payload (d : decision) (r : relay) : list (option pyval) :=
  map (fun k => r !! (decision_task_id d, k)) (decision_keys d).

(** A decision's result: the selected branches and the payload. *)
Definition decision_result (d : decision) (p : probe) (r : relay)
  : outcome (list string * list (option pyval)) :=
  '(branch, r') ← evaluate d p r;
  Returned (selected branch, decision_payload d r').

End Pipeline.

(** ** The graph *)

(** The edges of the [>>] lines that close the DAG; a task group stands as
    one node under its group id. *)
Definition edges : list (string * string) :=
  [("start", "check_source_freshness");
   ("check_source_freshness", "source_freshness_passed");
   ("check_source_freshness", "source_freshness_warning");
   ("check_source_freshness", "source_freshness_failed");
   ("source_freshness_passed", "freshness_check_complete");
   ("source_freshness_warning", "freshness_check_complete");
   ("freshness_check_complete", "dbt_deps");
   ("dbt_deps", "dbt_debug");
   ("dbt_debug", "staging");
   ("staging", "intermediate");
   ("intermediate", "check_late_arrivals");
   ("check_late_arrivals", "late_arrivals_detected");
   ("check_late_arrivals", "late_arrivals_clean");
   ("late_arrivals_detected", "late_arrivals_check_complete");
   ("late_arrivals_clean", "late_arrivals_check_complete");
   ("late_arrivals_check_complete", "check_schema_changes");
   ("check_schema_changes", "schema_changed");
   ("check_schema_changes", "schema_unchanged");
   ("schema_changed", "schema_check_complete");
   ("schema_unchanged", "schema_check_complete");
   ("schema_check_complete", "marts");
   ("marts", "analytics");
   ("analytics", "dbt_test");
   ("dbt_test", "dbt_docs_generate");
   ("dbt_docs_generate", "end")].

Definition upstream_of (t : string) : list string :=
  map fst (List.filter (fun e => String.eqb (snd e) t) edges).

Definition downstream_of (t : string) : list string :=
  map snd (List.filter (fun e => String.eqb (fst e) t) edges).

Inductive trigger_rule : Type :=
| AllSuccess
| AllDone
| NoneFailedMinOneSuccess.

(** The [trigger_rule] argument of each operator; [all_success] is the
    default of a task declared without one. *)
Definition trigger_rule_of (t : string) : trigger_rule :=
  if String.eqb t "source_freshness_failed" then AllDone
  else if String.eqb t "freshness_check_complete"
          || String.eqb t "schema_check_complete"
          || String.eqb t "late_arrivals_check_complete"
  then NoneFailedMinOneSuccess
  else AllSuccess.

(** ** Readiness *)

Inductive TaskStatus : Type :=
| PENDING | QUEUED | RUNNING | SUCCESS | FAILED | SKIPPED_BRANCH | SKIPPED_UPSTREAM.

Inductive verdict : Type := Ready | NotYetReady | Blocked.

Definition is_success (s : TaskStatus) : bool :=
  match s with SUCCESS => true | _ => false end.
Definition is_failed (s : TaskStatus) : bool :=
  match s with FAILED => true | _ => false end.
Definition is_skipped (s : TaskStatus) : bool :=
  match s with SKIPPED_BRANCH | SKIPPED_UPSTREAM => true | _ => false end.
Definition is_terminal (s : TaskStatus) : bool :=
  is_success s || is_failed s || is_skipped s.

(** Modelled from the spec: the Trigger-Rule Resolver [ready] of section
    4.2, which the scheduler library provides and the DAG file only names
    through [trigger_rule=...].  Each rule follows the section's words. *)
Definition ready (rule : trigger_rule) (upstreams : list TaskStatus) : verdict :=
  match rule with
  | AllSuccess =>
      if forallb is_success upstreams then Ready
      else if existsb (fun s => is_failed s || is_skipped s) upstreams then Blocked
      else NotYetReady
  | AllDone =>
      if forallb is_terminal upstreams then Ready else NotYetReady
  | NoneFailedMinOneSuccess =>
      if existsb is_failed upstreams then Blocked
      else if existsb is_success upstreams then Ready
      else NotYetReady
  end.

(** Modelled from the spec: the status a pending node takes after one scan
    of the engine (sections 4.5 and 8).  A ready node is queued; a blocked
    node, and a node that is not ready although all its upstreams are
    terminal, is SKIPPED_UPSTREAM; otherwise it keeps waiting. *)
Definition scan_pending (rule : trigger_rule) (upstreams : list TaskStatus) : TaskStatus :=
  match ready rule upstreams with
  | Ready => QUEUED
  | Blocked => SKIPPED_UPSTREAM
  | NotYetReady =>
      if forallb is_terminal upstreams then SKIPPED_UPSTREAM else PENDING
  end.

(** ** The handler tasks *)

(** What a handler task can raise: the built-in exceptions above, the
    [KeyError] of a subscript on a dict without the key, and the plain
    [Exception] the failure handler raises itself. *)
Inductive task_exn : Type :=
| Builtin (e : py_exn)
| KeyError (key : string)
| PlainException (msg : string).

(** How a step of a handler ends. *)
Inductive ended (A : Type) : Type :=
| Finished (a : A)
| Failed (e : task_exn).
Arguments Finished {A} a.
Arguments Failed {A} e.

#[global] Instance ended_ret : MRet ended := fun A a => Finished a.
#[global] Instance ended_bind : MBind ended := fun A B k c =>
  match c with
  | Finished a => k a
  | Failed e => Failed e
  end.

Definition builtin {A : Type} (c : outcome A) : ended A :=
  match c with
  | Returned a => Finished a
  | Raised e => Failed (Builtin e)
  end.

(** [v[key]] for a string [key].  Only a dict can answer; the texts of the
    [TypeError]s are those of CPython 3.11 and later. *)
Definition py_getitem (v : pyval) (key : string) : ended pyval :=
  match v with
  | PyDict items =>
      match dict_lookup key items with
      | Some x => Finished x
      | None => Failed (KeyError key)
      end
  | PyList _ =>
      Failed (Builtin (TypeError "list indices must be integers or slices, not str"))
  | PyStr _ =>
      Failed (Builtin (TypeError "string indices must be integers, not 'str'"))
  | _ =>
      Failed (Builtin (TypeError ("'" ++ py_type_name v ++ "' object is not subscriptable")))
  end.

(** [chr(10)] *)
Definition newline : string := String (ascii_of_nat 10) EmptyString.

(** [sep.join(parts)] *)
Fixpoint join (sep : string) (parts : list string) : string :=
  match parts with
  | [] => EmptyString
  | [x] => x
  | x :: rest => x ++ sep ++ join sep rest
  end.

(** The lines of a triple-quoted text, each followed by a line break but
    the last. *)
Definition text (lines : list string) : string := join newline lines.

Section Handlers.

Variable py_repr : pyval -> string.

(** Whether the float a literal denotes is other than zero: left open, as
    the literal is kept as text. *)
Variable float_nonzero : string -> bool.

(** [bool(v)] *)
Definition py_truthy (v : pyval) : bool :=
  match v with
  | PyNone => false
  | PyBool b => b
  | PyInt n => negb (n =? 0)
  | PyFloat literal => float_nonzero literal
  | PyStr s => negb (String.eqb s EmptyString)
  | PyList items => py_truthy_list items
  | PyDict items => match items with [] => false | _ :: _ => true end
  end.

(** The inner f-string of both handlers, for one source [s]. *)
Definition source_line (s : pyval) : ended string :=
  name ← py_getitem s "name";
  max_loaded_at ← py_getitem s "max_loaded_at";
  Finished ("  - " ++ py_str py_repr name ++ ": Last loaded at "
            ++ py_str py_repr max_loaded_at).

(** The list comprehension over the sources. *)
Fixpoint source_lines (sources : list pyval) : ended (list string) :=
  match sources with
  | [] => Finished []
  | s :: rest =>
      line ← source_line s;
      lines ← source_lines rest;
      Finished (line :: lines)
  end.

Definition warning_sign : string := "⚠️".
Definition alarm_sign : string := "🚨".

Definition warning_message (lines : list string) : string :=
  text [""; "    " ++ warning_sign ++ " SOURCE FRESHNESS WARNING";
        "    ";
        "    The following sources have not been updated recently:";
        "    ";
        "    " ++ join newline lines;
        "    ";
        "    Pipeline will continue, but data may be stale.";
        "    Please investigate the source data refresh process.";
        "    "].

Definition error_message (lines : list string) (runtime_error : pyval) : string :=
  text [""; "    " ++ alarm_sign ++ " SOURCE FRESHNESS ERROR - PIPELINE BLOCKED";
        "    ";
        "    The following sources have critically stale data:";
        "    ";
        "    " ++ join newline lines;
        "    ";
        "    " ++ (if py_truthy runtime_error
                   then "Runtime Error: " ++ py_str py_repr runtime_error
                   else "");
        "    ";
        "    Pipeline execution has been STOPPED.";
        "    Immediate action required to refresh source data.";
        "    "].

(** A handler's run: what it printed, one entry for each [print], and how
    it ended. *)
Definition handle_freshness_warning (r : relay) : list string * ended unit :=
  let results := xcom_pull "freshness_results" "check_source_freshness" r in
  match
    warned_sources ← builtin (py_get results "warned" (PyList []));
    sources ← builtin (py_iter warned_sources);
    lines ← source_lines sources;
    Finished (warning_message lines)
  with
  | Finished warning_message => ([warning_message], Finished tt)
  | Failed e => ([], Failed e)
  end.

Definition handle_freshness_failure (r : relay) : list string * ended unit :=
  let results := xcom_pull "freshness_results" "check_source_freshness" r in
  match
    errored_sources ← builtin (py_get results "errored" (PyList []));
    runtime_error ← builtin (py_get results "runtime_error" PyNone);
    sources ← builtin (py_iter errored_sources);
    lines ← source_lines sources;
    Finished (error_message lines runtime_error)
  with
  | Finished error_message =>
      ([error_message], Failed (PlainException error_message))
  | Failed e => ([], Failed e)
  end.

End Handlers.

(** *** Vocabulary for the statements about the report and the graph *)

(** An entry of the report as the loop builds it, with status [status]. *)
Definition is_entry (status : string) (entry : pyval) : Prop :=
  exists name max_loaded_at,
    entry = PyDict [("name", PyStr name); ("max_loaded_at", max_loaded_at);
                    ("status", PyStr status)].

(** The shape of the lists the loop builds. *)
Definition entries_ok (fr : freshness_results) : Prop :=
  Forall (is_entry "pass") (passed fr)
  /\ Forall (is_entry "warn") (warned fr)
  /\ Forall (is_entry "error") (errored fr).

(** A walk of one or more edges. *)
Inductive path : string -> string -> Prop :=
| path_edge a b : In (a, b) edges -> path a b
| path_step a b c : In (a, b) edges -> path b c -> path a c.

(** The nodes of [edges], each after all its upstreams. *)
Definition topological_order : list string :=
  ["start"; "check_source_freshness";
   "source_freshness_passed"; "source_freshness_warning"; "source_freshness_failed";
   "freshness_check_complete"; "dbt_deps"; "dbt_debug"; "staging"; "intermediate";
   "check_late_arrivals"; "late_arrivals_detected"; "late_arrivals_clean";
   "late_arrivals_check_complete"; "check_schema_changes";
   "schema_changed"; "schema_unchanged"; "schema_check_complete";
   "marts"; "analytics"; "dbt_test"; "dbt_docs_generate"; "end"].

(** The place of [t] in [order]; the length of [order] when it is absent. *)
Fixpoint rank_in (order : list string) (t : string) : nat :=
  match order with
  | [] => O
  | t' :: rest => if String.eqb t' t then O else S (rank_in rest t)
  end.

(** ** Concrete inputs for the examples *)

(** A printer for the examples, in which no float, list or dict is ever
    printed. *)
Definition repr_elided : pyval -> string := fun _ => "...".

Definition probe_output (out : string) : completed_process :=
  {| returncode := 0; stdout := out; stderr := "" |}.

Definition fresh_instance (t : string) : task_instance :=
  {| task_id := t; xcom := ∅ |}.

(** A freshness artifact with one source of each status. *)
Definition mixed_sources : list pyval :=
  [PyDict [("unique_id", PyStr "source.raw.listings"); ("status", PyStr "pass")];
   PyDict [("unique_id", PyStr "source.raw.calendar"); ("status", PyStr "warn")];
   PyDict [("unique_id", PyStr "source.raw.reviews"); ("status", PyStr "error")]].

(** Sources whose status the loop does not know, or that have none. *)
Definition odd_sources : list pyval :=
  [PyDict [("unique_id", PyStr "source.raw.listings"); ("status", PyStr "skipped")];
   PyDict [("unique_id", PyStr "source.raw.calendar")];
   PyDict [("status", PyNone)]].

(** Scenario B: the schema decision found drift, the late-arrival decision
    found nothing. *)
Definition scenario_b_relay : relay :=
  <[("check_late_arrivals", "late_arrivals_detected") := PyBool false]>
    (<[("check_schema_changes", "refresh_strategy") := PyStr "full_refresh"]> ∅).

(** Only the late-arrival decision has written. *)
Definition late_only_relay : relay :=
  {[ ("check_late_arrivals", "late_arrivals_detected") := PyBool true ]}.

(** A probe whose command was not found. *)
Definition failed_probe : probe :=
  {| process := {| returncode := 127; stdout := "";
                   stderr := "dbt: command not found" |};
     sources_json := NoFile |}.

(** For the examples, in which no float is ever tested. *)
Definition nonzero_elided : string -> bool := fun _ => true.

(** A freshness probe that succeeded and reported [mixed_sources]. *)
Definition mixed_probe : probe :=
  {| process := probe_output "";
     sources_json := Loaded (PyDict [("results", PyList mixed_sources)]) |}.

(** The relay the freshness decision leaves after [mixed_probe]. *)
Definition relay_after_mixed : relay :=
  {[ ("check_source_freshness", "freshness_results")
     := freshness_to_py (report_of repr_elided mixed_sources) ]}.

(** A schema probe that printed its marker. *)
Definition drift_probe : probe :=
  {| process := probe_output "SCHEMA CHANGE DETECTED: new amenity columns";
     sources_json := NoFile |}.

(** The relay after the late-arrival decision on [failed_probe], and after
    the schema decision on [drift_probe] that follows it. *)
Definition relay_after_late : relay :=
  <[("check_late_arrivals", "late_arrival_count") := PyInt 0]>
    {[ ("check_late_arrivals", "late_arrivals_detected") := PyBool false ]}.

Definition relay_after_drift : relay :=
  <[("check_schema_changes", "refresh_strategy") := PyStr "full_refresh"]>
    relay_after_late.

(** * Properties *)

Section Properties.

Variable py_repr : pyval -> string.

(** ** The relay *)

Lemma xcom_pull_push_same k v ti :
  xcom_pull k (task_id ti) (xcom (xcom_push k v ti)) = v.
Proof. unfold xcom_pull, xcom_push. cbn. by rewrite lookup_insert_eq. Qed.

Lemma xcom_push_push k v ti :
  xcom_push k v (xcom_push k v ti) = xcom_push k v ti.
Proof. unfold xcom_push. cbn. by rewrite insert_insert_eq. Qed.

Lemma commands_differ : full_refresh_command <> incremental_command.
Proof. discriminate. Qed.

(** ** The late-arrival pattern *)

Lemma parse_int_backslash s : parse_int (String backslash s) = None.
Proof. reflexivity. Qed.

Lemma match_here_backslash s g :
  match_here s = Some g -> exists ds, g = String backslash ds.
Proof.
  unfold match_here. destruct (String.prefix _ s); [|discriminate].
  destruct (take_d _) as [|c ds]; [discriminate|].
  intros [= <-]. eauto.
Qed.

Lemma re_search_backslash s g :
  re_search s = Some g -> exists ds, g = String backslash ds.
Proof.
  induction s as [|c s IH]; cbn [re_search].
  - destruct (match_here EmptyString) eqn:E; [|discriminate].
    intros [= <-]. eauto using match_here_backslash.
  - destruct (match_here (String c s)) eqn:E; [|exact IH].
    intros [= <-]. eauto using match_here_backslash.
Qed.

(** Every match of the pattern makes [int] raise. *)
Lemma py_int_group_raises s g :
  re_search s = Some g -> exists e, py_int py_repr g = Raised e.
Proof.
  intros [ds ->]%re_search_backslash. unfold py_int.
  rewrite parse_int_backslash. eauto.
Qed.

(** The callable never reports late arrivals: it raises or takes the
    clean branch with a count of zero. *)
Lemma check_late_arrivals_cases result ti :
  (exists e, check_late_arrivals py_repr result ti = Raised e)
  \/ check_late_arrivals py_repr result ti
     = Returned ("late_arrivals_clean",
                 xcom_push "late_arrival_count" (PyInt 0)
                   (xcom_push "late_arrivals_detected" (PyBool false) ti)).
Proof.
  unfold check_late_arrivals.
  destruct (re_search _) as [g|] eqn:E.
  - left. destruct (py_int_group_raises _ _ E) as [e ->]. eauto.
  - right. reflexivity.
Qed.


Lemma prefix_no_backslash p s :
  String.prefix p s = true -> no_backslash s = true -> no_backslash p = true.
Proof.
  revert s. induction p as [|c p IH]; intros [|c' s]; cbn; try done.
  destruct (Ascii.ascii_dec c c') as [->|]; [|done].
  intros Hp [-> Hs]%andb_true_iff. cbn. eauto.
Qed.

Lemma match_here_no_backslash s : no_backslash s = true -> match_here s = None.
Proof.
  intros Hs. unfold match_here.
  destruct (String.prefix late_arrival_literal s) eqn:Hp; [|done].
  by apply prefix_no_backslash in Hp.
Qed.

Lemma re_search_no_backslash s : no_backslash s = true -> re_search s = None.
Proof.
  induction s as [|c s IH]; intros Hs; cbn [re_search];
    rewrite (match_here_no_backslash _ Hs); [done|].
  cbn in Hs. apply andb_true_iff in Hs as [_ Hs]. auto.
Qed.

Lemma no_backslash_app s t :
  no_backslash (s ++ t) = no_backslash s && no_backslash t.
Proof.
  induction s as [|c s IH]; [done|].
  change (no_backslash (String c s ++ t))
    with (negb (Ascii.eqb c backslash) && no_backslash (s ++ t)).
  rewrite IH. cbn [no_backslash]. by rewrite andb_assoc.
Qed.

Lemma no_backslash_uint d : no_backslash (NilEmpty.string_of_uint d) = true.
Proof. induction d; cbn; auto. Qed.

Lemma no_backslash_int (n : Z) : no_backslash (py_str py_repr (PyInt n)) = true.
Proof.
  unfold py_str, NilZero.string_of_int, NilZero.string_of_uint.
  destruct (Z.to_int n) as [d|d]; destruct d; simpl;
    auto using no_backslash_uint.
Qed.

(** An output free of backslashes, whatever count it reports, takes the
    clean branch. *)
Lemma check_late_arrivals_no_backslash result ti :
  no_backslash (stdout result ++ stderr result) = true ->
  check_late_arrivals py_repr result ti
  = Returned ("late_arrivals_clean",
              xcom_push "late_arrival_count" (PyInt 0)
                (xcom_push "late_arrivals_detected" (PyBool false) ti)).
Proof.
  intros H. unfold check_late_arrivals. by rewrite (re_search_no_backslash _ H).
Qed.

(** ** Refresh strategy *)

(** The command the task runs once both entries are in the relay. *)
Lemma fct_daily_entries (schemaDrift lateArrivals : bool) (r : relay) :
  r !! ("check_schema_changes", "refresh_strategy")
    = Some (PyStr (if schemaDrift then "full_refresh" else "incremental")) ->
  r !! ("check_late_arrivals", "late_arrivals_detected")
    = Some (PyBool lateArrivals) ->
  fct_daily py_repr r
    = Some (if schemaDrift || lateArrivals then full_refresh_command
            else incremental_command).
Proof.
  intros Hs Hl. unfold fct_daily, xcom_pull. rewrite Hs, Hl.
  by destruct schemaDrift, lateArrivals.
Qed.

(** The graph runs the late-arrival decision, then the schema decision,
    then the marts.  Whatever the two probes print, the relay the decisions
    leave lets the task run, and the command follows the branches they
    took. *)
Lemma fct_daily_after_decisions (late_probe schema_probe : probe) (r0 r1 r2 : relay)
    (late_branch schema_branch : string) :
  evaluate py_repr CheckLateArrivals late_probe r0 = Returned (late_branch, r1) ->
  evaluate py_repr CheckSchemaChanges schema_probe r1 = Returned (schema_branch, r2) ->
  fct_daily py_repr r2
  = Some (if String.eqb schema_branch "schema_changed"
             || String.eqb late_branch "late_arrivals_detected"
          then full_refresh_command else incremental_command).
Proof.
  unfold evaluate. cbn [decision_task_id].
  unfold check_late_arrivals, check_schema_changes.
  destruct (match re_search _ with
            | Some group1 => py_int py_repr group1
            | None => Returned 0
            end) as [n|e]; [|done].
  cbn -[Z.ltb].
  destruct (0 <? n) eqn:En; intros [= <- <-];
    destruct (contains _ _) eqn:Ec; intros [= <- <-].
  - apply (fct_daily_entries true true); cbn; by simplify_map_eq.
  - apply (fct_daily_entries false true); cbn; by simplify_map_eq.
  - apply (fct_daily_entries true false); cbn; by simplify_map_eq.
  - apply (fct_daily_entries false false); cbn; by simplify_map_eq.
Qed.

(** C1: with the schema decision's [refresh_strategy] ('full_refresh' when
    there is drift, 'incremental' when not) and the late-arrival decision's
    [late_arrivals_detected] flag in the relay, the task
    fct_daily_listing_performance runs the full-refresh command if and only
    if schemaDrift or lateArrivals holds; (false, false) runs the
    incremental command. *)
Theorem fct_daily_refresh_strategy (schemaDrift lateArrivals : bool) (r : relay) :
  r !! ("check_schema_changes", "refresh_strategy")
    = Some (PyStr (if schemaDrift then "full_refresh" else "incremental")) ->
  r !! ("check_late_arrivals", "late_arrivals_detected")
    = Some (PyBool lateArrivals) ->
  fct_daily py_repr r
    = Some (if schemaDrift || lateArrivals then full_refresh_command
            else incremental_command)
  /\ (fct_daily py_repr r = Some full_refresh_command
      <-> schemaDrift || lateArrivals = true).
Proof.
  intros Hs Hl. pose proof (fct_daily_entries _ _ _ Hs Hl) as E.
  split; [exact E|]. rewrite E.
  destruct (schemaDrift || lateArrivals); split; done.
Qed.

(** The schema decision writes one of the two strategy words. *)
Lemma check_schema_changes_writes result ti :
  exists branch drift,
    check_schema_changes result ti
    = Returned (branch,
                xcom_push "refresh_strategy"
                  (PyStr (if drift : bool then "full_refresh" else "incremental")) ti).
Proof.
  unfold check_schema_changes.
  destruct (contains _ _); [by exists "schema_changed", true
                           | by exists "schema_unchanged", false].
Qed.

(** C2 (amended): a missing relay entry raises nothing.  The pull yields
    None, which renders as the text None, so the task still runs one of the
    two commands: the full-refresh command exactly when the entry that is
    present asks for it, and the incremental command otherwise, as when both
    entries are missing. *)
Theorem fct_daily_missing_entry (r : relay) :
  r !! ("check_schema_changes", "refresh_strategy") = None
  \/ r !! ("check_late_arrivals", "late_arrivals_detected") = None ->
  (forall v, r !! ("check_schema_changes", "refresh_strategy") = Some v ->
             v = PyStr "full_refresh" \/ v = PyStr "incremental") ->
  (forall v, r !! ("check_late_arrivals", "late_arrivals_detected") = Some v ->
             exists b, v = PyBool b) ->
  exists cmd,
    fct_daily py_repr r = Some cmd
    /\ (cmd = full_refresh_command \/ cmd = incremental_command)
    /\ (cmd = full_refresh_command
        <-> r !! ("check_schema_changes", "refresh_strategy")
              = Some (PyStr "full_refresh")
            \/ r !! ("check_late_arrivals", "late_arrivals_detected")
              = Some (PyBool true)).
Proof.
  intros Hmiss Hs Hl. unfold fct_daily, xcom_pull.
  assert (incremental_command = full_refresh_command -> False) as Hd
    by (intros H; by apply commands_differ).
  destruct (r !! ("check_schema_changes", "refresh_strategy")) as [v|];
    destruct (r !! ("check_late_arrivals", "late_arrivals_detected")) as [w|].
  - by destruct Hmiss.
  - destruct (Hs v eq_refl) as [-> | ->]; cbn; eexists;
      (split; [reflexivity|]); (split; [auto|]); split.
    + by left.
    + done.
    + intros H. by destruct Hd.
    + by intros [[=]|[=]].
  - destruct (Hl w eq_refl) as [[] ->]; cbn; eexists;
      (split; [reflexivity|]); (split; [auto|]); split.
    + by right.
    + done.
    + intros H. by destruct Hd.
    + by intros [[=]|[=]].
  - cbn. eexists. split; [reflexivity|]. split; [auto|]. split.
    + intros H. by destruct Hd.
    + by intros [[=]|[=]].
Qed.

(** ** Probe output *)

(** C3: an output that reports the count [n] as LATE_ARRIVAL_COUNT=n takes
    the clean branch with flag False and count 0 for every [n], also for
    n > 0: the pattern asks for a backslash and letters d where the digits
    stand. *)
Theorem check_late_arrivals_ignores_count (n : Z) (ti : task_instance) :
  check_late_arrivals py_repr
    (probe_output ("LATE_ARRIVAL_COUNT=" ++ py_str py_repr (PyInt n))) ti
  = Returned ("late_arrivals_clean",
              xcom_push "late_arrival_count" (PyInt 0)
                (xcom_push "late_arrivals_detected" (PyBool false) ti)).
Proof.
  apply check_late_arrivals_no_backslash.
  unfold probe_output; cbn [stdout stderr].
  by rewrite !no_backslash_app, no_backslash_int.
Qed.

(** C4 (amended): when the marker SCHEMA CHANGE DETECTED is absent the
    schema decision selects schema_unchanged and writes 'incremental'; when
    the count pattern finds no match the late-arrival decision selects
    late_arrivals_clean and writes False and 0.  These pushes are all that
    reaches the relay: no parse failure is recorded. *)
Theorem unparsed_output_takes_clean_path (schema_probe late_probe : completed_process)
    (ti : task_instance) :
  contains "SCHEMA CHANGE DETECTED" (stdout schema_probe ++ stderr schema_probe)
    = false ->
  re_search (stdout late_probe ++ stderr late_probe) = None ->
  check_schema_changes schema_probe ti
    = Returned ("schema_unchanged",
                xcom_push "refresh_strategy" (PyStr "incremental") ti)
  /\ check_late_arrivals py_repr late_probe ti
    = Returned ("late_arrivals_clean",
                xcom_push "late_arrival_count" (PyInt 0)
                  (xcom_push "late_arrivals_detected" (PyBool false) ti)).
Proof.
  intros Hs Hl. unfold check_schema_changes, check_late_arrivals.
  by rewrite Hs, Hl.
Qed.

(** ** Source freshness *)

(** The two tests that pick the branch. *)
Ltac case_lists fr :=
  destruct (py_truthy_list (errored fr)), (py_truthy_list (warned fr)).

Lemma py_eq_str_true v s : py_eq_str v s = true -> v = PyStr s.
Proof.
  destruct v; cbn; try done. by intros ->%String.eqb_eq.
Qed.

Lemma truthy_map_filter (f : pyval -> pyval) (p : pyval -> bool) (l : list pyval) :
  py_truthy_list (map f (List.filter p l)) = existsb p l.
Proof.
  induction l as [|x l IH]; cbn; [done|]. by destruct (p x).
Qed.

(** One turn on a dict: the entry goes to the list of its status. *)
Lemma record_source_dict items fr :
  let source := PyDict items in
  let entry := source_info_of py_repr source in
  record_source py_repr source fr
  = Returned
      {| passed := passed fr ++ (if has_status "pass" source then [entry] else []);
         warned := warned fr ++ (if has_status "warn" source then [entry] else []);
         errored := errored fr ++ (if has_status "error" source then [entry] else []);
         runtime_error := runtime_error fr |}.
Proof.
  cbn -[py_eq_str]. unfold has_status.
  destruct (dict_lookup "status" items) as [st|];
    [|cbn; rewrite !app_nil_r; by destruct fr].
  destruct (py_eq_str st "pass") eqn:Ep.
  { apply py_eq_str_true in Ep as ->. cbn. by rewrite !app_nil_r. }
  destruct (py_eq_str st "warn") eqn:Ew.
  { apply py_eq_str_true in Ew as ->. cbn. by rewrite !app_nil_r. }
  destruct (py_eq_str st "error") eqn:Ee.
  { apply py_eq_str_true in Ee as ->. cbn. by rewrite !app_nil_r. }
  rewrite !app_nil_r. by destruct fr.
Qed.

(** The loop over dicts never raises and sorts the entries by status. *)
Lemma for_each_source_dicts sources fr :
  forallb is_dict sources = true ->
  for_each_source py_repr sources fr
  = ({| passed := passed fr ++ passed (report_of py_repr sources);
        warned := warned fr ++ warned (report_of py_repr sources);
        errored := errored fr ++ errored (report_of py_repr sources);
        runtime_error := runtime_error fr |}, None).
Proof.
  revert fr. induction sources as [|source sources IH]; intros fr Hd.
  - cbn. rewrite !app_nil_r. by destruct fr.
  - cbn [forallb] in Hd. apply andb_true_iff in Hd as [Hs Hd].
    destruct source as [| | | | | |items]; try done.
    cbn [for_each_source]. rewrite record_source_dict, (IH _ Hd).
    cbn [passed warned errored runtime_error report_of List.filter map].
    do 2 f_equal;
      match goal with
      | |- context [has_status ?s (PyDict items)] =>
          destruct (has_status s (PyDict items)); cbn [map];
          by rewrite <- ?app_assoc
      end.
Qed.

Lemma check_source_freshness_dicts result items sources ti :
  runtime_error_exit result = false ->
  py_get (PyDict items) "results" (PyList []) = Returned (PyList sources) ->
  forallb is_dict sources = true ->
  check_source_freshness py_repr result (Loaded (PyDict items)) ti
  = Returned (branch_of_statuses sources,
              xcom_push "freshness_results"
                (freshness_to_py (report_of py_repr sources)) ti).
Proof.
  intros Hexit Hres Hd. unfold check_source_freshness, read_sources.
  rewrite Hexit, Hres. cbn [mbind outcome_bind py_iter].
  rewrite (for_each_source_dicts _ _ Hd). cbn [no_results passed warned errored
    runtime_error app].
  replace {| passed := passed (report_of py_repr sources);
             warned := warned (report_of py_repr sources);
             errored := errored (report_of py_repr sources);
             runtime_error := PyNone |} with (report_of py_repr sources) by done.
  unfold branch_of_statuses. cbn [report_of passed warned errored].
  rewrite !truthy_map_filter.
  by destruct (existsb (has_status "error") sources),
              (existsb (has_status "warn") sources).
Qed.

(** C5: for an artifact that is parsed (the early return for a dbt runtime
    error is not taken, and the file holds a dict whose results are a list
    of dicts) the decision selects source_freshness_failed if and only if
    some source has status error, otherwise source_freshness_warning if and
    only if some source has status warn, otherwise source_freshness_passed;
    the relay it returns holds the report under freshness_results. *)
Theorem check_source_freshness_branch result items sources ti :
  runtime_error_exit result = false ->
  py_get (PyDict items) "results" (PyList []) = Returned (PyList sources) ->
  forallb is_dict sources = true ->
  exists branch,
    check_source_freshness py_repr result (Loaded (PyDict items)) ti
    = Returned (branch,
                xcom_push "freshness_results"
                  (freshness_to_py (report_of py_repr sources)) ti)
    /\ (branch = "source_freshness_failed"
        <-> existsb (has_status "error") sources = true)
    /\ (branch = "source_freshness_warning"
        <-> existsb (has_status "error") sources = false
            /\ existsb (has_status "warn") sources = true)
    /\ (branch = "source_freshness_passed"
        <-> existsb (has_status "error") sources = false
            /\ existsb (has_status "warn") sources = false).
Proof.
  intros Hexit Hres Hd. exists (branch_of_statuses sources).
  split; [by apply check_source_freshness_dicts|].
  unfold branch_of_statuses.
  destruct (existsb (has_status "error") sources),
           (existsb (has_status "warn") sources);
    repeat split; try done; by intros [? ?].
Qed.

(** C9: whatever the process returned and whatever the artifact is (no
    file, a file that cannot be read or decoded, a value of any shape), the
    callable returns: it pushes its report and names one of the three
    branches.  An exception raised while the artifact is read is caught and
    its text is the report's runtime_error. *)
Theorem check_source_freshness_total result a ti :
  exists branch fr,
    check_source_freshness py_repr result a ti
    = Returned (branch,
                xcom_push "freshness_results" (freshness_to_py fr) ti)
    /\ In branch ["source_freshness_passed"; "source_freshness_warning";
                  "source_freshness_failed"]
    /\ (runtime_error_exit result = false ->
        forall e, snd (read_sources py_repr a no_results) = Some e ->
                  runtime_error fr = PyStr (exn_message e)).
Proof.
  unfold check_source_freshness.
  destruct (runtime_error_exit result).
  { eexists _, _. split; [reflexivity|]. split; [cbn; auto|done]. }
  destruct (read_sources py_repr a no_results) as [fr [e|]].
  - exists (if py_truthy_list (errored fr) then "source_freshness_failed"
            else if py_truthy_list (warned fr) then "source_freshness_warning"
            else "source_freshness_passed"),
           (set_runtime_error (PyStr (exn_message e)) fr).
    cbn [set_runtime_error errored warned runtime_error snd].
    split; [by case_lists fr|].
    split; [|by intros _ e' [= <-]].
    case_lists fr;
      cbn; auto.
  - exists (if py_truthy_list (errored fr) then "source_freshness_failed"
            else if py_truthy_list (warned fr) then "source_freshness_warning"
            else "source_freshness_passed"), fr.
    split; [by case_lists fr|].
    split; [|by intros _ e' [=]].
    case_lists fr;
      cbn; auto.
Qed.

Lemma unrecognized_filter s sources :
  forallb (unrecognized) sources = true ->
  In s ["pass"; "warn"; "error"] ->
  List.filter (has_status s) sources = [].
Proof.
  intros Hu Hs. induction sources as [|x l IH]; [done|].
  cbn [forallb] in Hu. apply andb_true_iff in Hu as [Hx Hl].
  cbn [List.filter]. rewrite (IH Hl).
  unfold unrecognized in Hx. apply andb_true_iff in Hx as [_ Hx].
  apply negb_true_iff, orb_false_iff in Hx as [Hx He].
  apply orb_false_iff in Hx as [Hp Hw].
  cbn in Hs. destruct Hs as [<-|[<-|[<-|[]]]]; by rewrite ?Hp, ?Hw, ?He.
Qed.

Lemma unrecognized_dicts sources :
  forallb unrecognized sources = true -> forallb is_dict sources = true.
Proof.
  induction sources as [|x l IH]; [done|]. cbn [forallb].
  intros [[Hx _]%andb_true_iff Hl]%andb_true_iff. rewrite Hx. cbn. auto.
Qed.

(** C10: a source whose status is none of pass, warn, error leaves the
    three lists as they are, so it cannot bring about the warning or the
    failure branch; an artifact whose sources all have such a status
    selects source_freshness_passed, with an empty report. *)
Theorem unrecognized_status_selects_passed result items sources ti :
  runtime_error_exit result = false ->
  py_get (PyDict items) "results" (PyList []) = Returned (PyList sources) ->
  forallb unrecognized sources = true ->
  (forall source fr, In source sources ->
                     record_source py_repr source fr = Returned fr)
  /\ check_source_freshness py_repr result (Loaded (PyDict items)) ti
     = Returned ("source_freshness_passed",
                 xcom_push "freshness_results" (freshness_to_py no_results) ti).
Proof.
  intros Hexit Hres Hu. split.
  - intros source fr Hin.
    apply forallb_forall with (x := source) in Hu; [|done].
    unfold unrecognized in Hu. apply andb_true_iff in Hu as [Hd Hx].
    apply negb_true_iff, orb_false_iff in Hx as [Hx He].
    apply orb_false_iff in Hx as [Hp Hw].
    destruct source as [| | | | | |its]; try done.
    rewrite record_source_dict, Hp, Hw, He, !app_nil_r. by destruct fr.
  - rewrite (check_source_freshness_dicts _ _ _ _ Hexit Hres
               (unrecognized_dicts _ Hu)).
    unfold branch_of_statuses, report_of.
    rewrite !(unrecognized_filter _ _ Hu) by (cbn; auto).
    rewrite <- !(truthy_map_filter (source_info_of py_repr)).
    by rewrite !(unrecognized_filter _ _ Hu) by (cbn; auto).
Qed.

(** ** Branch operators *)

Lemma insert_twice_again (m : relay) k1 k2 v1 v2 :
  <[k2:=v2]> (<[k1:=v1]> (<[k2:=v2]> (<[k1:=v1]> m))) = <[k2:=v2]> (<[k1:=v1]> m).
Proof.
  apply map_eq. intros i. rewrite !lookup_insert. by repeat case_decide.
Qed.

(** A branch operator that returns names one direct successor. *)
Lemma evaluate_branch d p r branch r' :
  evaluate py_repr d p r = Returned (branch, r') ->
  In branch (downstream_of (decision_task_id d)).
Proof.
  unfold evaluate. destruct d; cbn [decision_task_id].
  - unfold check_schema_changes. destruct (contains _ _);
      intros [= <- <-]; cbn; auto.
  - destruct (check_late_arrivals_cases (process p)
        {| task_id := "check_late_arrivals"; xcom := r |}) as [[e ->] | ->];
      [done|]. intros [= <- <-]; cbn; auto.
  - unfold check_source_freshness. destruct (runtime_error_exit _).
    { intros [= <- <-]; cbn; auto. }
    destruct (read_sources _ _ _) as [fr [e|]]; cbn [set_runtime_error errored warned];
      case_lists fr;
      intros [= <- <-]; cbn; auto.
Qed.

Lemma decision_result_singleton d p r branches payload :
  decision_result py_repr d p r = Returned (branches, payload) ->
  exists b, branches = [b] /\ In b (downstream_of (decision_task_id d)).
Proof.
  unfold decision_result.
  destruct (evaluate py_repr d p r) as [[branch r']|e] eqn:E; [|done].
  intros [= <- <-]. exists branch. split; [done|].
  eauto using evaluate_branch.
Qed.

(** C7 (amended): every decision that returns selects exactly one branch
    identifier, and that identifier is one of the decision's direct
    successors in the graph. *)
Theorem decision_selects_one_branch d p r branches payload :
  decision_result py_repr d p r = Returned (branches, payload) ->
  exists b, branches = [b] /\ In b (downstream_of (decision_task_id d)).
Proof. apply decision_result_singleton. Qed.

(** C8: a decision's result (the selected branches and the values it left
    under its keys) depends on the probe alone, not on the relay it starts
    from; and evaluating it again on the relay it produced returns the same
    branch and leaves that relay as it is. *)
Theorem decision_result_idempotent (d : decision) (p : probe) (r r' : relay) :
  decision_result py_repr d p r = decision_result py_repr d p r'
  /\ (forall branch r1,
        evaluate py_repr d p r = Returned (branch, r1) ->
        evaluate py_repr d p r1 = Returned (branch, r1)).
Proof.
  unfold decision_result, decision_payload, evaluate. destruct d;
    cbn [decision_task_id decision_keys].
  - unfold check_schema_changes. destruct (contains _ _); cbn; split.
    + by rewrite !lookup_insert_eq.
    + intros ? ? [= <- <-]. by rewrite insert_insert_eq.
    + by rewrite !lookup_insert_eq.
    + intros ? ? [= <- <-]. by rewrite insert_insert_eq.
  - unfold check_late_arrivals.
    destruct (match re_search _ with
              | Some group1 => py_int py_repr group1
              | None => Returned 0
              end) as [n|e]; [|done].
    cbn -[Z.ltb]. destruct (0 <? n); cbn; split.
    + rewrite !(lookup_insert_ne _ ("check_late_arrivals", "late_arrival_count")
                  ("check_late_arrivals", "late_arrivals_detected")) by done.
      by rewrite !lookup_insert_eq.
    + intros ? ? [= <- <-]. by rewrite insert_twice_again.
    + rewrite !(lookup_insert_ne _ ("check_late_arrivals", "late_arrival_count")
                  ("check_late_arrivals", "late_arrivals_detected")) by done.
      by rewrite !lookup_insert_eq.
    + intros ? ? [= <- <-]. by rewrite insert_twice_again.
  - unfold check_source_freshness. destruct (runtime_error_exit _).
    { cbn. split; [by rewrite !lookup_insert_eq|].
      intros ? ? [= <- <-]. by rewrite insert_insert_eq. }
    destruct (read_sources _ _ _) as [fr [e|]];
      cbn [set_runtime_error errored warned];
      case_lists fr;
      cbn; (split; [by rewrite !lookup_insert_eq|]);
      intros ? ? [= <- <-]; by rewrite insert_insert_eq.
Qed.

(** ** Readiness *)

Lemma existsb_is_failed l : existsb is_failed l = true <-> In FAILED l.
Proof.
  rewrite existsb_exists. split.
  - intros [[] [H ?]]; done.
  - intros H. by exists FAILED.
Qed.

Lemma existsb_is_success l : existsb is_success l = true <-> In SUCCESS l.
Proof.
  rewrite existsb_exists. split.
  - intros [[] [H ?]]; done.
  - intros H. by exists SUCCESS.
Qed.

Lemma existsb_drop_skipped (f : TaskStatus -> bool) l :
  (forall s, is_skipped s = true -> f s = false) ->
  existsb f (List.filter (fun s => negb (is_skipped s)) l) = existsb f l.
Proof.
  intros Hf. induction l as [|s l IH]; [done|]. cbn.
  destruct (is_skipped s) eqn:E; cbn; rewrite IH; [|done].
  by rewrite (Hf _ E).
Qed.

(** C6: under the rule none_failed_min_one_success, which the three join
    tasks declare, a node is Ready if and only if no upstream is FAILED and
    some upstream is SUCCESS; skipped upstreams change nothing; upstreams
    SUCCESS and SKIPPED_BRANCH let the node run, FAILED and SUCCESS, or two
    SKIPPED_BRANCH, make it SKIPPED_UPSTREAM. *)
Theorem none_failed_min_one_success_ready (upstreams : list TaskStatus) :
  (ready NoneFailedMinOneSuccess upstreams = Ready
   <-> ~ In FAILED upstreams /\ In SUCCESS upstreams)
  /\ ready NoneFailedMinOneSuccess
       (List.filter (fun s => negb (is_skipped s)) upstreams)
     = ready NoneFailedMinOneSuccess upstreams
  /\ scan_pending NoneFailedMinOneSuccess [SUCCESS; SKIPPED_BRANCH] = QUEUED
  /\ scan_pending NoneFailedMinOneSuccess [FAILED; SUCCESS] = SKIPPED_UPSTREAM
  /\ scan_pending NoneFailedMinOneSuccess [SKIPPED_BRANCH; SKIPPED_BRANCH]
     = SKIPPED_UPSTREAM
  /\ Forall (fun t => trigger_rule_of t = NoneFailedMinOneSuccess)
       ["freshness_check_complete"; "schema_check_complete";
        "late_arrivals_check_complete"].
Proof.
  split; [|split; [|repeat split; repeat constructor]].
  - unfold ready. rewrite <- existsb_is_failed, <- existsb_is_success.
    destruct (existsb is_failed upstreams), (existsb is_success upstreams);
      split; try done; intros [H1 H2]; done.
  - unfold ready. rewrite !existsb_drop_skipped; [done| |]; by intros [].
Qed.

End Properties.

(** * Instances *)

(** C1, scenario B: schema drift and no late arrivals run the full
    refresh. *)
Lemma fct_daily_refresh_strategy_witness :
  fct_daily repr_elided scenario_b_relay = Some full_refresh_command
  /\ (fct_daily repr_elided scenario_b_relay = Some full_refresh_command
      <-> true || false = true).
Proof.
  apply (fct_daily_refresh_strategy repr_elided true false scenario_b_relay);
    vm_compute; reflexivity.
Defined.

(** C2: on an empty relay the task runs the incremental command. *)
Lemma fct_daily_empty_relay_incremental :
  fct_daily repr_elided ∅ = Some incremental_command.
Proof. vm_compute. reflexivity. Qed.

(** C2 (amended), with the schema entry missing and the late-arrival flag
    set. *)
Lemma fct_daily_missing_entry_witness :
  exists cmd,
    fct_daily repr_elided late_only_relay = Some cmd
    /\ (cmd = full_refresh_command \/ cmd = incremental_command)
    /\ (cmd = full_refresh_command
        <-> late_only_relay !! ("check_schema_changes", "refresh_strategy")
              = Some (PyStr "full_refresh")
            \/ late_only_relay !! ("check_late_arrivals", "late_arrivals_detected")
              = Some (PyBool true)).
Proof.
  apply (fct_daily_missing_entry repr_elided late_only_relay).
  - left. vm_compute. reflexivity.
  - intros v H. vm_compute in H. discriminate H.
  - intros v H. vm_compute in H. exists true. congruence.
Defined.

(** C3, the count 5. *)
Example check_late_arrivals_count_five :
  check_late_arrivals repr_elided (probe_output "LATE_ARRIVAL_COUNT=5")
    (fresh_instance "check_late_arrivals")
  = Returned ("late_arrivals_clean",
              {| task_id := "check_late_arrivals";
                 xcom := <[("check_late_arrivals", "late_arrival_count") := PyInt 0]>
                           {[ ("check_late_arrivals", "late_arrivals_detected")
                              := PyBool false ]} |}).
Proof. vm_compute. reflexivity. Qed.

(** C4: a probe whose output holds neither marker (the command was not
    found) sends both decisions down the path of the absent condition, and
    the relay holds nothing but the usual entries. *)
Lemma failed_probe_takes_clean_path :
  evaluate repr_elided CheckSchemaChanges failed_probe ∅
  = Returned ("schema_unchanged",
              {[ ("check_schema_changes", "refresh_strategy") := PyStr "incremental" ]})
  /\ evaluate repr_elided CheckLateArrivals failed_probe ∅
     = Returned ("late_arrivals_clean",
                 <[("check_late_arrivals", "late_arrival_count") := PyInt 0]>
                   {[ ("check_late_arrivals", "late_arrivals_detected")
                      := PyBool false ]}).
Proof. split; vm_compute; reflexivity. Qed.

(** C4 (amended), on empty outputs. *)
Lemma unparsed_output_takes_clean_path_witness :
  check_schema_changes (probe_output "") (fresh_instance "check")
    = Returned ("schema_unchanged",
                xcom_push "refresh_strategy" (PyStr "incremental")
                  (fresh_instance "check"))
  /\ check_late_arrivals repr_elided (probe_output "") (fresh_instance "check")
    = Returned ("late_arrivals_clean",
                xcom_push "late_arrival_count" (PyInt 0)
                  (xcom_push "late_arrivals_detected" (PyBool false)
                     (fresh_instance "check"))).
Proof.
  apply (unparsed_output_takes_clean_path repr_elided (probe_output "")
           (probe_output "") (fresh_instance "check")); vm_compute; reflexivity.
Defined.

(** C5, scenario A: one source in error selects the failure branch. *)
Lemma check_source_freshness_branch_witness :
  exists branch,
    check_source_freshness repr_elided (probe_output "")
      (Loaded (PyDict [("results", PyList mixed_sources)]))
      (fresh_instance "check_source_freshness")
    = Returned (branch,
                xcom_push "freshness_results"
                  (freshness_to_py (report_of repr_elided mixed_sources))
                  (fresh_instance "check_source_freshness"))
    /\ (branch = "source_freshness_failed"
        <-> existsb (has_status "error") mixed_sources = true)
    /\ (branch = "source_freshness_warning"
        <-> existsb (has_status "error") mixed_sources = false
            /\ existsb (has_status "warn") mixed_sources = true)
    /\ (branch = "source_freshness_passed"
        <-> existsb (has_status "error") mixed_sources = false
            /\ existsb (has_status "warn") mixed_sources = false).
Proof.
  apply (check_source_freshness_branch repr_elided (probe_output "")
           [("results", PyList mixed_sources)] mixed_sources
           (fresh_instance "check_source_freshness"));
    vm_compute; reflexivity.
Defined.

(** C7: no decision ever selects two branches. *)
Lemma no_decision_selects_two_branches :
  ~ exists (repr : pyval -> string) (d : decision) (p : probe) (r : relay)
           (branches : list string) (payload : list (option pyval)),
      decision_result repr d p r = Returned (branches, payload)
      /\ (1 < length branches)%nat.
Proof.
  intros (repr & d & p & r & branches & payload & E & Hlen).
  apply decision_result_singleton in E as (b & -> & _).
  cbn in Hlen. lia.
Qed.

(** C7 (amended), on a freshness probe with a warning and an error. *)
Lemma decision_selects_one_branch_witness :
  exists b,
    ["source_freshness_failed"] = [b]
    /\ In b (downstream_of (decision_task_id CheckSourceFreshness)).
Proof.
  eapply (decision_selects_one_branch repr_elided CheckSourceFreshness
            {| process := probe_output "";
               sources_json := Loaded (PyDict [("results", PyList mixed_sources)]) |}
            ∅).
  vm_compute. reflexivity.
Defined.

(** C10: statuses the loop does not know, and a source without status. *)
Lemma unrecognized_status_selects_passed_witness :
  (forall source fr, In source odd_sources ->
                     record_source repr_elided source fr = Returned fr)
  /\ check_source_freshness repr_elided (probe_output "")
       (Loaded (PyDict [("results", PyList odd_sources)]))
       (fresh_instance "check_source_freshness")
     = Returned ("source_freshness_passed",
                 xcom_push "freshness_results" (freshness_to_py no_results)
                   (fresh_instance "check_source_freshness")).
Proof.
  apply (unrecognized_status_selects_passed repr_elided (probe_output "")
           [("results", PyList odd_sources)] odd_sources
           (fresh_instance "check_source_freshness"));
    vm_compute; reflexivity.
Defined.

(** * Further properties *)

Section MoreProperties.

Variable py_repr : pyval -> string.
Variable float_nonzero : string -> bool.

(** ** Text *)

Lemma prefix_iff (p s : string) :
  String.prefix p s = true <-> exists t, s = p ++ t.
Proof.
  revert s. induction p as [|c p IH]; intros s.
  - split; [intros _; by exists s|by destruct s].
  - destruct s as [|c' s]; cbn; [split; [done|by intros [t [=]]]|].
    destruct (Ascii.ascii_dec c c') as [->|Hne].
    + rewrite IH. split; intros [t H]; exists t; [by rewrite H|by injection H].
    + split; [done|]. intros [t [= -> _]]. by destruct Hne.
Qed.

(** [needle in hay] holds exactly when [needle] occurs in [hay]. *)
Lemma contains_iff (needle hay : string) :
  contains needle hay = true <-> exists pre post, hay = pre ++ needle ++ post.
Proof.
  induction hay as [|c hay IH]; cbn [contains]; rewrite orb_true_iff, prefix_iff.
  - split.
    + intros [[t H]|]; [|done]. by exists EmptyString, t.
    + intros ([|? ?] & post & H); [|done]. left. by exists post.
  - rewrite IH. split.
    + intros [[t H]|(pre & post & H)].
      * by exists EmptyString, t.
      * exists (String c pre), post. by rewrite H.
    + intros ([|c' pre] & post & H).
      * left. by exists post.
      * right. injection H as -> ->. by exists pre, post.
Qed.





(** ** The decisions *)

(** X1: the schema decision looks for the marker in the standard output
    followed by the error output, and at nothing else.  When the marker
    occurs there, also across the seam of the two, it selects
    schema_changed and writes full_refresh; when it does not, it selects
    schema_unchanged and writes incremental.  The exit code plays no
    part. *)
Theorem check_schema_changes_marker (result : completed_process) (ti : task_instance) :
  ((exists pre post,
       stdout result ++ stderr result = pre ++ "SCHEMA CHANGE DETECTED" ++ post) ->
   check_schema_changes result ti
   = Returned ("schema_changed",
               xcom_push "refresh_strategy" (PyStr "full_refresh") ti))
  /\ (~ (exists pre post,
           stdout result ++ stderr result = pre ++ "SCHEMA CHANGE DETECTED" ++ post) ->
      check_schema_changes result ti
      = Returned ("schema_unchanged",
                  xcom_push "refresh_strategy" (PyStr "incremental") ti)).
Proof.
  unfold check_schema_changes.
  destruct (contains "SCHEMA CHANGE DETECTED" (stdout result ++ stderr result))
    eqn:E.
  - split; [done|]. intros H. destruct H. by apply contains_iff.
  - split; [|done]. intros H%contains_iff. congruence.
Qed.


(** X3: a decision writes under its own task id and its own keys only:
    every other entry of the relay is after the decision what it was
    before. *)
Theorem decision_keeps_other_entries (d : decision) (p : probe) (r r' : relay)
    (branch t k : string) :
  evaluate py_repr d p r = Returned (branch, r') ->
  t <> decision_task_id d \/ ~ In k (decision_keys d) ->
  r' !! (t, k) = r !! (t, k).
Proof.
  intros E Hk.
  assert (forall k', In k' (decision_keys d) -> (decision_task_id d, k') <> (t, k))
    as Hne.
  { intros k' Hin [= <- <-]. by destruct Hk. }
  revert E. unfold evaluate. destruct d; cbn [decision_task_id decision_keys] in *.
  - unfold check_schema_changes. destruct (contains _ _); intros [= <- <-]; cbn;
      rewrite !lookup_insert_ne by (apply Hne; cbn; auto); done.
  - unfold check_late_arrivals.
    destruct (match re_search _ with
              | Some group1 => py_int py_repr group1
              | None => Returned 0
              end) as [n|e]; [|done].
    cbn -[Z.ltb]. destruct (0 <? n); intros [= <- <-]; cbn;
      rewrite !lookup_insert_ne by (apply Hne; cbn; auto); done.
  - unfold check_source_freshness. destruct (runtime_error_exit _).
    { intros [= <- <-]. cbn. rewrite !lookup_insert_ne by (apply Hne; cbn; auto); done. }
    destruct (read_sources _ _ _) as [fr [e|]];
      cbn [set_runtime_error errored warned];
      destruct (py_truthy_list (errored fr)), (py_truthy_list (warned fr));
      intros [= <- <-]; cbn; rewrite !lookup_insert_ne by (apply Hne; cbn; auto); done.
Qed.

(** X4: the late-arrival decision, the schema decision and the fact task
    in the order of the graph.  Whenever both decisions return, the late
    decision took the clean branch, and the fact task runs the full refresh
    exactly when the schema probe printed its marker: no probe output of
    the late-arrival check brings a full refresh about. *)
Theorem full_refresh_follows_schema_marker (late_probe schema_probe : probe)
    (r0 r1 r2 : relay) (late_branch schema_branch : string) :
  evaluate py_repr CheckLateArrivals late_probe r0 = Returned (late_branch, r1) ->
  evaluate py_repr CheckSchemaChanges schema_probe r1 = Returned (schema_branch, r2) ->
  late_branch = "late_arrivals_clean"
  /\ fct_daily py_repr r2
     = Some (if contains "SCHEMA CHANGE DETECTED"
                  (stdout (process schema_probe) ++ stderr (process schema_probe))
             then full_refresh_command else incremental_command).
Proof.
  intros El Es.
  rewrite (fct_daily_after_decisions _ _ _ _ _ _ _ _ El Es).
  assert (late_branch = "late_arrivals_clean") as ->.
  { revert El. unfold evaluate. cbn [decision_task_id].
    destruct (check_late_arrivals_cases py_repr (process late_probe)
                {| task_id := "check_late_arrivals"; xcom := r0 |})
      as [[e ->] | ->]; [done|]. by intros [= <- <-]. }
  split; [done|]. revert Es. unfold evaluate, check_schema_changes.
  destruct (contains _ _); by intros [= <- <-].
Qed.

(** ** The freshness report *)

Lemma record_source_not_dict (source : pyval) (fr : freshness_results) :
  is_dict source = false ->
  record_source py_repr source fr = Raised (no_attribute source "get").
Proof. by destruct source. Qed.

(** The loop runs through a prefix of dicts as through a list of them. *)
Lemma for_each_source_prefix (dicts rest : list pyval) (fr : freshness_results) :
  forallb is_dict dicts = true ->
  for_each_source py_repr (dicts ++ rest) fr
  = for_each_source py_repr rest
      {| passed := passed fr ++ passed (report_of py_repr dicts);
         warned := warned fr ++ warned (report_of py_repr dicts);
         errored := errored fr ++ errored (report_of py_repr dicts);
         runtime_error := runtime_error fr |}.
Proof.
  revert fr. induction dicts as [|source dicts IH]; intros fr Hd.
  - cbn. rewrite !app_nil_r. by destruct fr.
  - cbn [forallb] in Hd. apply andb_true_iff in Hd as [Hs Hd].
    destruct source as [| | | | | |items]; try done.
    change ((PyDict items :: dicts) ++ rest)%list
      with (PyDict items :: (dicts ++ rest))%list.
    cbn [for_each_source]. rewrite record_source_dict, (IH _ Hd).
    cbn [passed warned errored runtime_error report_of List.filter map].
    f_equal. f_equal;
      match goal with
      | |- context [has_status ?s (PyDict items)] =>
          destruct (has_status s (PyDict items)); cbn [map];
          by rewrite <- ?app_assoc
      end.
Qed.

(** X5: the first source that is not a dict stops the loop.  The sources
    before it are reported and decide the branch; the exception's text goes
    to runtime_error; the sources after it are never looked at, whatever
    their status. *)
Theorem malformed_source_stops_loop (result : completed_process)
    (items : list (string * pyval)) (dicts rest : list pyval) (bad : pyval)
    (ti : task_instance) :
  runtime_error_exit result = false ->
  py_get (PyDict items) "results" (PyList [])
    = Returned (PyList (dicts ++ bad :: rest)) ->
  forallb is_dict dicts = true ->
  is_dict bad = false ->
  check_source_freshness py_repr result (Loaded (PyDict items)) ti
  = Returned
      (branch_of_statuses dicts,
       xcom_push "freshness_results"
         (freshness_to_py
            (set_runtime_error
               (PyStr ("'" ++ py_type_name bad ++ "' object has no attribute 'get'"))
               (report_of py_repr dicts))) ti).
Proof.
  intros Hexit Hres Hd Hbad. unfold check_source_freshness, read_sources.
  rewrite Hexit, Hres. cbn [mbind outcome_bind py_iter].
  rewrite (for_each_source_prefix _ _ _ Hd). cbn [for_each_source].
  rewrite (record_source_not_dict _ _ Hbad).
  cbn [no_results passed warned errored runtime_error app set_runtime_error
       exn_message no_attribute].
  unfold branch_of_statuses. cbn [report_of passed warned errored].
  rewrite !truthy_map_filter.
  by destruct (existsb (has_status "error") dicts),
              (existsb (has_status "warn") dicts).
Qed.

(** X6: when there is no dict to read the sources from (no file, a file
    that cannot be opened or decoded, a top-level value that is not a dict)
    and the early return is not taken, the decision selects
    source_freshness_passed with three empty lists, also after a non-zero
    exit.  runtime_error is None for a missing file and the exception's
    text otherwise. *)
Theorem artifact_without_dict_passes (result : completed_process) (a : artifact)
    (ti : task_instance) :
  runtime_error_exit result = false ->
  (forall items, a <> Loaded (PyDict items)) ->
  exists err,
    check_source_freshness py_repr result a ti
    = Returned ("source_freshness_passed",
                xcom_push "freshness_results"
                  (freshness_to_py (set_runtime_error err no_results)) ti)
    /\ err = match a with
             | NoFile => PyNone
             | ReadFails e => PyStr (exn_message e)
             | Loaded v =>
                 PyStr ("'" ++ py_type_name v ++ "' object has no attribute 'get'")
             end.
Proof.
  intros Hexit Hnd. unfold check_source_freshness. rewrite Hexit.
  destruct a as [|e|v]; [by eexists|by eexists|].
  destruct v; try (by eexists). by destruct (Hnd items).
Qed.

Lemma source_info_entry (items : list (string * pyval)) (s : string) :
  has_status s (PyDict items) = true ->
  is_entry s (source_info_of py_repr (PyDict items)).
Proof.
  cbn. intros ->%py_eq_str_true. by eexists _, _.
Qed.

Lemma record_source_entries (source : pyval) (fr fr' : freshness_results) :
  record_source py_repr source fr = Returned fr' ->
  entries_ok fr ->
  entries_ok fr'
  /\ (length (passed fr') + length (warned fr') + length (errored fr')
      <= S (length (passed fr) + length (warned fr) + length (errored fr)))%nat.
Proof.
  destruct source as [| | | | | |items]; try done.
  rewrite record_source_dict. intros [= <-] (Hp & Hw & He).
  unfold entries_ok. cbn [passed warned errored].
  cbn [source_info_of has_status]. rewrite !length_app.
  generalize (match dict_lookup "status" items with
              | Some v => v
              | None => PyStr "unknown"
              end).
  intros st.
  assert (forall s name t, is_entry s
            (PyDict [("name", PyStr name); ("max_loaded_at", t); ("status", PyStr s)]))
    as Hentry by (intros; by eexists _, _).
  destruct (py_eq_str st "pass") eqn:Ep.
  { apply py_eq_str_true in Ep as ->. cbn. rewrite !app_nil_r.
    split; [|lia]. repeat split; try done.
    apply Forall_app. split; [done|]. by constructor. }
  destruct (py_eq_str st "warn") eqn:Ew.
  { apply py_eq_str_true in Ew as ->. cbn. rewrite !app_nil_r.
    split; [|lia]. repeat split; try done.
    apply Forall_app. split; [done|]. by constructor. }
  destruct (py_eq_str st "error") eqn:Ee.
  { apply py_eq_str_true in Ee as ->. cbn. rewrite !app_nil_r.
    split; [|lia]. repeat split; try done.
    apply Forall_app. split; [done|]. by constructor. }
  rewrite !app_nil_r. split; [done|cbn; lia].
Qed.

Lemma for_each_source_entries (sources : list pyval) (fr : freshness_results) :
  entries_ok fr ->
  entries_ok (for_each_source py_repr sources fr).1
  /\ (length (passed (for_each_source py_repr sources fr).1)
      + length (warned (for_each_source py_repr sources fr).1)
      + length (errored (for_each_source py_repr sources fr).1)
      <= length sources
         + (length (passed fr) + length (warned fr) + length (errored fr)))%nat.
Proof.
  revert fr. induction sources as [|source sources IH]; intros fr Hfr;
    cbn [for_each_source].
  - split; [done|cbn; lia].
  - destruct (record_source py_repr source fr) as [fr'|e] eqn:E.
    + destruct (record_source_entries _ _ _ E Hfr) as [Hfr' Hlen].
      destruct (IH _ Hfr') as [Hok Hle]. split; [done|]. cbn [length]. lia.
    + split; [done|]. cbn. lia.
Qed.

Lemma no_results_entries : entries_ok no_results.
Proof. repeat split; constructor. Qed.

Lemma read_sources_entries (a : artifact) :
  entries_ok (read_sources py_repr a no_results).1.
Proof.
  pose proof no_results_entries as H0. destruct a as [|e|v]; try done.
  unfold read_sources.
  destruct (results ← py_get v "results" (PyList []); py_iter results)
    as [sources|e]; [|done].
  by apply for_each_source_entries.
Qed.

(** What the decision returns, in terms of the report it pushes. *)
Lemma check_source_freshness_report (result : completed_process) (a : artifact)
    (ti : task_instance) :
  exists branch fr,
    check_source_freshness py_repr result a ti
    = Returned (branch, xcom_push "freshness_results" (freshness_to_py fr) ti)
    /\ entries_ok fr
    /\ branch = (if runtime_error_exit result then "source_freshness_failed"
                 else if py_truthy_list (errored fr) then "source_freshness_failed"
                 else if py_truthy_list (warned fr) then "source_freshness_warning"
                 else "source_freshness_passed")
    /\ (runtime_error_exit result = true ->
        fr = set_runtime_error (PyStr (stderr result)) no_results)
    /\ (runtime_error_exit result = false ->
        passed fr = passed (read_sources py_repr a no_results).1
        /\ warned fr = warned (read_sources py_repr a no_results).1
        /\ errored fr = errored (read_sources py_repr a no_results).1).
Proof.
  unfold check_source_freshness.
  pose proof (read_sources_entries a) as Hok.
  destruct (runtime_error_exit result).
  { eexists _, _. split; [reflexivity|].
    split; [apply no_results_entries|]. by repeat split. }
  destruct (read_sources py_repr a no_results) as [fr [e|]]; cbn [fst] in Hok.
  - exists (if py_truthy_list (errored fr) then "source_freshness_failed"
            else if py_truthy_list (warned fr) then "source_freshness_warning"
            else "source_freshness_passed"),
           (set_runtime_error (PyStr (exn_message e)) fr).
    cbn [set_runtime_error errored warned passed].
    split; [by destruct (py_truthy_list (errored fr)), (py_truthy_list (warned fr))|].
    unfold entries_ok in *. cbn [fst snd passed warned errored].
    destruct Hok as (? & ? & ?). by repeat split.
  - exists (if py_truthy_list (errored fr) then "source_freshness_failed"
            else if py_truthy_list (warned fr) then "source_freshness_warning"
            else "source_freshness_passed"), fr.
    split; [by destruct (py_truthy_list (errored fr)), (py_truthy_list (warned fr))|].
    unfold entries_ok in *. cbn [fst snd passed warned errored].
    destruct Hok as (? & ? & ?). by repeat split.
Qed.

(** X7: whatever the process and the artifact are, every entry the decision
    pushes in the list passed is a dict with exactly the keys name,
    max_loaded_at and status, its name a string and its status 'pass'; so
    for warned with 'warn' and for errored with 'error'. *)
Theorem pushed_entries_have_their_status (result : completed_process) (a : artifact)
    (ti : task_instance) :
  exists branch fr,
    check_source_freshness py_repr result a ti
    = Returned (branch, xcom_push "freshness_results" (freshness_to_py fr) ti)
    /\ Forall (is_entry "pass") (passed fr)
    /\ Forall (is_entry "warn") (warned fr)
    /\ Forall (is_entry "error") (errored fr).
Proof.
  destruct (check_source_freshness_report result a ti)
    as (branch & fr & E & Hok & _).
  by exists branch, fr.
Qed.

(** X8: the branch can be read off the pushed report and the exit.  The
    decision selects source_freshness_failed exactly when the early return
    for a dbt runtime error is taken or the list errored is not empty;
    source_freshness_warning exactly when neither holds and the list warned
    is not empty.  After the early return the report is three empty lists
    with the error output as runtime_error, whatever the artifact.  A
    runtime_error recorded by the except clause changes no branch. *)
Theorem branch_agrees_with_report (result : completed_process) (a : artifact)
    (ti : task_instance) :
  exists branch fr,
    check_source_freshness py_repr result a ti
    = Returned (branch, xcom_push "freshness_results" (freshness_to_py fr) ti)
    /\ (branch = "source_freshness_failed"
        <-> runtime_error_exit result = true \/ errored fr <> [])
    /\ (branch = "source_freshness_warning"
        <-> runtime_error_exit result = false /\ errored fr = []
            /\ warned fr <> [])
    /\ (branch = "source_freshness_passed"
        <-> runtime_error_exit result = false /\ errored fr = []
            /\ warned fr = [])
    /\ (runtime_error_exit result = true ->
        fr = set_runtime_error (PyStr (stderr result)) no_results).
Proof.
  destruct (check_source_freshness_report result a ti)
    as (branch & fr & E & _ & -> & Hexit & _).
  eexists _, fr. split; [exact E|]. split; [|split; [|split; [|done]]].
  - destruct (runtime_error_exit result); [intuition congruence|].
    destruct (errored fr), (warned fr); cbn; intuition congruence.
  - destruct (runtime_error_exit result); [intuition congruence|].
    destruct (errored fr), (warned fr); cbn; intuition congruence.
  - destruct (runtime_error_exit result); [intuition congruence|].
    destruct (errored fr), (warned fr); cbn; intuition congruence.
Qed.

(** X9: the three lists together never hold more entries than the list of
    results has sources: the loop records a source at most once. *)
Theorem report_no_longer_than_results (result : completed_process)
    (items : list (string * pyval)) (sources : list pyval) (ti : task_instance) :
  py_get (PyDict items) "results" (PyList []) = Returned (PyList sources) ->
  exists branch fr,
    check_source_freshness py_repr result (Loaded (PyDict items)) ti
    = Returned (branch, xcom_push "freshness_results" (freshness_to_py fr) ti)
    /\ (length (passed fr) + length (warned fr) + length (errored fr)
        <= length sources)%nat.
Proof.
  intros Hres.
  destruct (check_source_freshness_report result (Loaded (PyDict items)) ti)
    as (branch & fr & E & _ & _ & Hexit & Hrun).
  exists branch, fr. split; [exact E|].
  destruct (runtime_error_exit result).
  - rewrite (Hexit eq_refl). cbn. lia.
  - destruct (Hrun eq_refl) as (-> & -> & ->).
    unfold read_sources. rewrite Hres. cbn [mbind outcome_bind py_iter].
    pose proof (for_each_source_entries sources no_results no_results_entries)
      as [_ Hle]. cbn in Hle. lia.
Qed.

(** ** The handlers *)






(** X12: when nothing was pushed under freshness_results, both handlers
    raise AttributeError on the None they pull, before printing
    anything. *)
Theorem handlers_without_report (r : relay) :
  r !! ("check_source_freshness", "freshness_results") = None ->
  handle_freshness_warning py_repr r
    = ([], Failed (Builtin (AttributeError "'NoneType' object has no attribute 'get'")))
  /\ handle_freshness_failure py_repr float_nonzero r
    = ([], Failed (Builtin (AttributeError "'NoneType' object has no attribute 'get'"))).
Proof.
  intros H. unfold handle_freshness_warning, handle_freshness_failure, xcom_pull.
  by rewrite H.
Qed.

(** ** The graph *)

(** X13: the branch a decision selects and the join behind it.  The schema
    and the late-arrival decision always select an upstream of their join.
    The freshness decision selects an upstream of freshness_check_complete
    exactly when it does not select source_freshness_failed: the failure
    branch leads nowhere. *)
Theorem selected_branch_and_join (d : decision) (p : probe) (r r' : relay)
    (branch : string) :
  evaluate py_repr d p r = Returned (branch, r') ->
  match d with
  | CheckSchemaChanges => In branch (upstream_of "schema_check_complete")
  | CheckLateArrivals => In branch (upstream_of "late_arrivals_check_complete")
  | CheckSourceFreshness =>
      (In branch (upstream_of "freshness_check_complete")
       <-> branch <> "source_freshness_failed")
      /\ downstream_of "source_freshness_failed" = []
  end.
Proof.
  intros H%evaluate_branch. destruct d; cbn in H |- *.
  - destruct H as [<-|[<-|[]]]; auto.
  - destruct H as [<-|[<-|[]]]; auto.
  - split; [|done]. destruct H as [<-|[<-|[<-|[]]]].
    + split; [done|auto].
    + split; [done|auto].
    + split; [|done]. by intros [[=]|[[=]|[]]].
Qed.

Lemma edges_forward :
  forall a b, In (a, b) edges ->
              (rank_in topological_order a < rank_in topological_order b)%nat.
Proof.
  assert (forallb (fun e => rank_in topological_order e.1
                            <? rank_in topological_order e.2)%nat edges = true)
    as H by reflexivity.
  intros a b Hin. rewrite forallb_forall in H.
  specialize (H _ Hin). by apply Nat.ltb_lt in H.
Qed.

Lemma path_forward (a b : string) :
  path a b -> (rank_in topological_order a < rank_in topological_order b)%nat.
Proof.
  induction 1 as [a b H|a b c H _ IH].
  - by apply edges_forward.
  - apply edges_forward in H. lia.
Qed.

(** X14: the graph has no cycle: a walk along the edges never ends where
    it started, and no walk leads back from its end to its start. *)
Theorem graph_is_acyclic (a b : string) :
  path a b -> a <> b /\ ~ path b a.
Proof.
  intros Hab%path_forward. split.
  - intros ->. lia.
  - intros Hba%path_forward. lia.
Qed.

End MoreProperties.

(** * Instances of the further properties *)

(** X3: the schema decision leaves the late-arrival flag alone. *)
Lemma decision_keeps_other_entries_witness :
  relay_after_drift !! ("check_late_arrivals", "late_arrivals_detected")
  = relay_after_late !! ("check_late_arrivals", "late_arrivals_detected").
Proof.
  apply (decision_keeps_other_entries repr_elided CheckSchemaChanges drift_probe
           relay_after_late relay_after_drift "schema_changed"
           "check_late_arrivals" "late_arrivals_detected").
  - vm_compute. reflexivity.
  - left. discriminate.
Defined.

(** X4: a late-arrival probe that failed, then a schema probe with the
    marker. *)
Lemma full_refresh_follows_schema_marker_witness :
  "late_arrivals_clean" = "late_arrivals_clean"
  /\ fct_daily repr_elided relay_after_drift
     = Some (if contains "SCHEMA CHANGE DETECTED"
                  (stdout (process drift_probe) ++ stderr (process drift_probe))
             then full_refresh_command else incremental_command).
Proof.
  apply (full_refresh_follows_schema_marker repr_elided failed_probe drift_probe
           ∅ relay_after_late relay_after_drift
           "late_arrivals_clean" "schema_changed");
    vm_compute; reflexivity.
Defined.

(** X5: a number among the results, after three sources and before three
    more. *)
Lemma malformed_source_stops_loop_witness :
  check_source_freshness repr_elided (probe_output "")
    (Loaded (PyDict [("results", PyList (mixed_sources ++ PyInt 3 :: odd_sources))]))
    (fresh_instance "check_source_freshness")
  = Returned
      (branch_of_statuses mixed_sources,
       xcom_push "freshness_results"
         (freshness_to_py
            (set_runtime_error
               (PyStr ("'" ++ py_type_name (PyInt 3)
                       ++ "' object has no attribute 'get'"))
               (report_of repr_elided mixed_sources)))
         (fresh_instance "check_source_freshness")).
Proof.
  apply (malformed_source_stops_loop repr_elided (probe_output "")
           [("results", PyList (mixed_sources ++ PyInt 3 :: odd_sources))]
           mixed_sources odd_sources (PyInt 3)
           (fresh_instance "check_source_freshness"));
    vm_compute; reflexivity.
Defined.

(** X6: dbt was not found, exit code 127, and there is no file. *)
Lemma artifact_without_dict_passes_witness :
  exists err,
    check_source_freshness repr_elided (process failed_probe) NoFile
      (fresh_instance "check_source_freshness")
    = Returned ("source_freshness_passed",
                xcom_push "freshness_results"
                  (freshness_to_py (set_runtime_error err no_results))
                  (fresh_instance "check_source_freshness"))
    /\ err = PyNone.
Proof.
  apply (artifact_without_dict_passes repr_elided (process failed_probe) NoFile
           (fresh_instance "check_source_freshness")).
  - vm_compute. reflexivity.
  - intros items. discriminate.
Defined.

(** X9, on the three sources of [mixed_sources]. *)
Lemma report_no_longer_than_results_witness :
  exists branch fr,
    check_source_freshness repr_elided (probe_output "")
      (Loaded (PyDict [("results", PyList mixed_sources)]))
      (fresh_instance "check_source_freshness")
    = Returned (branch,
                xcom_push "freshness_results" (freshness_to_py fr)
                  (fresh_instance "check_source_freshness"))
    /\ (length (passed fr) + length (warned fr) + length (errored fr)
        <= length mixed_sources)%nat.
Proof.
  apply (report_no_longer_than_results repr_elided (probe_output "")
           [("results", PyList mixed_sources)] mixed_sources
           (fresh_instance "check_source_freshness")).
  vm_compute. reflexivity.
Defined.



(** X12, on the empty relay. *)
Lemma handlers_without_report_witness :
  handle_freshness_warning repr_elided ∅
    = ([], Failed (Builtin (AttributeError "'NoneType' object has no attribute 'get'")))
  /\ handle_freshness_failure repr_elided nonzero_elided ∅
    = ([], Failed (Builtin (AttributeError "'NoneType' object has no attribute 'get'"))).
Proof.
  apply (handlers_without_report repr_elided nonzero_elided ∅).
  vm_compute. reflexivity.
Defined.

(** X13: [mixed_probe] selects the failure branch, which is no upstream of
    the join. *)
Lemma selected_branch_and_join_witness :
  (In "source_freshness_failed" (upstream_of "freshness_check_complete")
   <-> "source_freshness_failed" <> "source_freshness_failed")
  /\ downstream_of "source_freshness_failed" = [].
Proof.
  apply (selected_branch_and_join repr_elided CheckSourceFreshness mixed_probe ∅
           relay_after_mixed "source_freshness_failed").
  vm_compute. reflexivity.
Defined.

(** X14: the walk from the schema decision to the marts. *)
Lemma graph_is_acyclic_witness :
  "check_schema_changes" <> "marts" /\ ~ path "marts" "check_schema_changes".
Proof.
  apply (graph_is_acyclic "check_schema_changes" "marts").
  apply (path_step _ "schema_changed");
    [repeat (first [left; reflexivity | right])|].
  apply (path_step _ "schema_check_complete");
    [repeat (first [left; reflexivity | right])|].
  apply path_edge. repeat (first [left; reflexivity | right]).
Defined.
